(** * pipeline_runner/repository.py : RepositoryCloner

    A shallow embedding of [RepositoryCloner] (settings resolution, the
    bootstrap script builder, the origin helper and the [clone]
    orchestrator), together with an abstract semantics of the generated
    shell script over the build directory and its git repository. *)

From Stdlib Require Import String List ZArith Bool Lia.
Import ListNotations.
Open Scope string_scope.

(* ================================================================== *)
(** ** Python values and results *)

(** Python exceptions raised along the modelled paths. *)
Inductive pyexc :=
| NameError (name : string)
| Exception_ (msg : string).

(** A Python computation either returns or raises. *)
Inductive result (A : Type) :=
| Ok (a : A)
| Raise (e : pyexc).
Arguments Ok {A} a.
Arguments Raise {A} e.

(** Python truthiness of a string (the [if parent_repo_path:] test). *)
Definition str_truthy (s : string) : bool :=
  match s with EmptyString => false | _ => true end.

(** Python truthiness of an int (the [if exit_code:] test). *)
Definition int_truthy (z : Z) : bool := negb (Z.eqb z 0).

(** [os.environ] as a Python dict from names to values. *)
Definition environ := list (string * string).

(** [os.environ.get(k)]. *)
Fixpoint environ_get (env : environ) (k : string) : option string :=
  match env with
  | [] => None
  | (k', v) :: env' => if String.eqb k k' then Some v else environ_get env' k
  end.

Definition PARENT_VAR := "PIPELINE_RUNNER_PARENT_REPO_PATH".

(** The process-wide configuration object [config] (config.py); only the
    one field the cloner reads is modelled. *)
Record Config := { remote_workspace_dir : string }.

(* ================================================================== *)
(** ** Clone settings and their resolution *)

(** [depth: int | str]. *)
Inductive depth_val := DInt (n : Z) | DStr (s : string).

(** [CloneSettings] (models.py): three optional fields. *)
Record CloneSettings := {
  enabled : option bool;
  lfs : option bool;
  depth : option depth_val
}.

(** [_first_non_none_value( *args)]:
    [next((v for v in args if v is not None), None)]. *)
Fixpoint _first_non_none_value {T : Type} (args : list (option T)) : option T :=
  match args with
  | [] => None
  | Some v :: _ => Some v
  | None :: rest => _first_non_none_value rest
  end.

(** Python [bool(x)] for an optional boolean. *)
Definition py_bool (o : option bool) : bool :=
  match o with Some b => b | None => false end.

Section Resolution.
(** [CloneSettings()]: the built-in defaults (models.py is not part of
    the sources, so the defaults are left abstract). *)
Variable default_settings : CloneSettings.

Definition _should_clone (step glob : CloneSettings) : bool :=
  py_bool (_first_non_none_value
             [enabled step; enabled glob; enabled default_settings]).

Definition _should_clone_lfs (step glob : CloneSettings) : bool :=
  py_bool (_first_non_none_value
             [lfs step; lfs glob; lfs default_settings]).

Definition _get_clone_depth (step glob : CloneSettings) : option depth_val :=
  _first_non_none_value [depth step; depth glob; depth default_settings].
End Resolution.

(* ================================================================== *)
(** ** The bootstrap script builder *)

(** [_get_clone_script(self)], line by line as in the source; the
    environment snapshot [os.environ] and [config] are explicit. *)
Definition _get_clone_script (os_environ : environ) (config : Config) : list string :=
  let workspace_path := remote_workspace_dir config in
  let parent_repo_path := environ_get os_environ PARENT_VAR in
  let workspace_path :=
    match parent_repo_path with
    | Some p => if str_truthy p then p else workspace_path
    | None => workspace_path
    end in
  [ "echo 'Contents of workspace " ++ workspace_path ++ ":'";
    "ls -la " ++ workspace_path;
    "cp -r " ++ workspace_path ++ " $BUILD_DIR";
    "echo 'Checking for .git file in current workspace...'";
    "if [ -f " ++ workspace_path ++ "/.git ]; then";
    "  echo 'Found .git file at: " ++ workspace_path ++ "/.git'";
    "  echo 'This is a submodule .git file, removing it to let git handle it properly'";
    "  rm -f $BUILD_DIR/.git";
    "else";
    "  echo 'No .git file found in current workspace'";
    "fi";
    "if [ ! -d $BUILD_DIR/.git ]; then";
    "  echo 'Initializing git repository...'";
    "  cd $BUILD_DIR";
    "  git init";
    "  git config user.name bitbucket-pipelines";
    "  git config user.email commits-noreply@bitbucket.org";
    "  git add .";
    "  git commit -m 'Initial commit'";
    "  echo 'Creating initial commit...'";
    "else";
    "  echo 'Repository already exists, resetting...'";
    "  cd $BUILD_DIR";
    "  git add .";
    "  git commit -m 'Update commit'";
    "fi";
    "cd $BUILD_DIR";
    "echo 'Creating initial commit...'";
    "git add .";
    "if git diff --cached --quiet; then";
    "  echo 'No changes to commit, working tree is clean'";
    "else";
    "  git commit -m 'Initial commit'";
    "  echo 'Initial commit created'";
    "fi";
    "git config user.name bitbucket-pipelines";
    "git config user.email commits-noreply@bitbucket.org";
    "git config push.default current";
    "if git remote get-url origin >/dev/null 2>&1; then";
    "  git remote set-url origin file://" ++ workspace_path;
    "  echo 'Updated existing remote origin'";
    "else";
    "  git remote add origin file://" ++ workspace_path;
    "  echo 'Added remote origin'";
    "fi";
    "git reflog expire --expire=all --all";
    "echo '.bitbucket/pipelines/generated' >> .git/info/exclude";
    "if [ -f .gitmodules ]; then";
    "  git submodule update --init --recursive";
    "fi" ].

(** The path-resolution step at the head of [_get_clone_script]. *)
Definition resolve_workspace_path (os_environ : environ) (config : Config) : string :=
  match environ_get os_environ PARENT_VAR with
  | Some p => if str_truthy p then p else remote_workspace_dir config
  | None => remote_workspace_dir config
  end.

(** *** The script as a small shell program

    The same directives as structured syntax: paths, simple commands and
    one level of [if ... then ... else ... fi] (the script nests no
    deeper).  [render] prints it back; [render_clone_program] below proves
    that it prints exactly the lines of [_get_clone_script]. *)

Inductive spath :=
| WsRoot          (* {workspace_path} *)
| WsGit           (* {workspace_path}/.git *)
| BuildDir        (* $BUILD_DIR *)
| BuildGit        (* $BUILD_DIR/.git *)
| RelGitmodules.  (* .gitmodules, relative to the current directory *)

Inductive piece := Lit (s : string) | WsPiece.

Inductive scmd :=
| Echo (ps : list piece)
| Ls (p : spath)
| CpR (src dst : spath)
| RmF (p : spath)
| Cd (p : spath)
| GitInit
| GitConfig (k v : string)
| GitAdd
| GitCommit (msg : string)
| GitRemoteSetUrl (name : string) (p : spath)
| GitRemoteAdd (name : string) (p : spath)
| GitReflogExpire
| AppendExclude (line : string)
| GitSubmoduleUpdate.

Inductive cond :=
| TestF (p : spath)
| TestNotD (p : spath)
| RemoteGetUrl (name : string)
| DiffCachedQuiet.

Inductive cmd :=
| Simple (c : scmd)
| If (c : cond) (th : list scmd) (el : option (list scmd)).

(** Registration of the [origin] remote. *)
Definition origin_block : cmd :=
  If (RemoteGetUrl "origin")
     [ GitRemoteSetUrl "origin" WsRoot; Echo [Lit "Updated existing remote origin"] ]
     (Some [ GitRemoteAdd "origin" WsRoot; Echo [Lit "Added remote origin"] ]).

Definition clone_program : list cmd :=
  [ Simple (Echo [Lit "Contents of workspace "; WsPiece; Lit ":"]);
    Simple (Ls WsRoot);
    Simple (CpR WsRoot BuildDir);
    Simple (Echo [Lit "Checking for .git file in current workspace..."]);
    If (TestF WsGit)
       [ Echo [Lit "Found .git file at: "; WsPiece; Lit "/.git"];
         Echo [Lit "This is a submodule .git file, removing it to let git handle it properly"];
         RmF BuildGit ]
       (Some [ Echo [Lit "No .git file found in current workspace"] ]);
    If (TestNotD BuildGit)
       [ Echo [Lit "Initializing git repository..."];
         Cd BuildDir;
         GitInit;
         GitConfig "user.name" "bitbucket-pipelines";
         GitConfig "user.email" "commits-noreply@bitbucket.org";
         GitAdd;
         GitCommit "Initial commit";
         Echo [Lit "Creating initial commit..."] ]
       (Some [ Echo [Lit "Repository already exists, resetting..."];
               Cd BuildDir;
               GitAdd;
               GitCommit "Update commit" ]);
    Simple (Cd BuildDir);
    Simple (Echo [Lit "Creating initial commit..."]);
    Simple GitAdd;
    If DiffCachedQuiet
       [ Echo [Lit "No changes to commit, working tree is clean"] ]
       (Some [ GitCommit "Initial commit"; Echo [Lit "Initial commit created"] ]);
    Simple (GitConfig "user.name" "bitbucket-pipelines");
    Simple (GitConfig "user.email" "commits-noreply@bitbucket.org");
    Simple (GitConfig "push.default" "current");
    origin_block;
    Simple GitReflogExpire;
    Simple (AppendExclude ".bitbucket/pipelines/generated");
    If (TestF RelGitmodules) [ GitSubmoduleUpdate ] None ].

Section Render.
Variable workspace_path : string.

(** Paths are printed in continuation style: [render_path p k] is the
    path followed by [k]. *)
Definition render_path (p : spath) (k : string) : string :=
  match p with
  | WsRoot => workspace_path ++ k
  | WsGit => workspace_path ++ ("/.git" ++ k)
  | BuildDir => "$BUILD_DIR" ++ k
  | BuildGit => "$BUILD_DIR/.git" ++ k
  | RelGitmodules => ".gitmodules" ++ k
  end.

Definition render_pieces (ps : list piece) (k : string) : string :=
  fold_right (fun p acc => match p with
                           | Lit s => s ++ acc
                           | WsPiece => workspace_path ++ acc
                           end) k ps.

Definition render_scmd (c : scmd) : string :=
  match c with
  | Echo ps => "echo '" ++ render_pieces ps "'"
  | Ls p => "ls -la " ++ render_path p ""
  | CpR s d => "cp -r " ++ render_path s (" " ++ render_path d "")
  | RmF p => "rm -f " ++ render_path p ""
  | Cd p => "cd " ++ render_path p ""
  | GitInit => "git init"
  | GitConfig k v => "git config " ++ k ++ " " ++ v
  | GitAdd => "git add ."
  | GitCommit m => "git commit -m '" ++ m ++ "'"
  | GitRemoteSetUrl n p => "git remote set-url " ++ n ++ " file://" ++ render_path p ""
  | GitRemoteAdd n p => "git remote add " ++ n ++ " file://" ++ render_path p ""
  | GitReflogExpire => "git reflog expire --expire=all --all"
  | AppendExclude l => "echo '" ++ l ++ "' >> .git/info/exclude"
  | GitSubmoduleUpdate => "git submodule update --init --recursive"
  end.

Definition render_cond (c : cond) (k : string) : string :=
  match c with
  | TestF p => "[ -f " ++ render_path p (" ]" ++ k)
  | TestNotD p => "[ ! -d " ++ render_path p (" ]" ++ k)
  | RemoteGetUrl n => "git remote get-url " ++ n ++ " >/dev/null 2>&1" ++ k
  | DiffCachedQuiet => "git diff --cached --quiet" ++ k
  end.

Definition render_cmd (c : cmd) : list string :=
  match c with
  | Simple s => [render_scmd s]
  | If c th el =>
      ("if " ++ render_cond c "; then")
        :: map (fun s => "  " ++ render_scmd s) th
        ++ match el with
           | Some e => "else" :: map (fun s => "  " ++ render_scmd s) e
           | None => []
           end
        ++ ["fi"]
  end.

Definition render (prog : list cmd) : list string := flat_map render_cmd prog.
End Render.

Lemma append_empty_r (s : string) : s ++ "" = s.
Proof. induction s as [|a s IH]; simpl; [reflexivity | now rewrite IH]. Qed.

Lemma render_clone_program (os_environ : environ) (config : Config) :
  render (resolve_workspace_path os_environ config) clone_program
  = _get_clone_script os_environ config.
Proof.
  unfold _get_clone_script, resolve_workspace_path.
  generalize (remote_workspace_dir config); intro d.
  destruct (environ_get os_environ PARENT_VAR) as [p|]; [destruct (str_truthy p)|].
  all: cbn; rewrite !append_empty_r; reflexivity.
Qed.

(* ================================================================== *)
(** ** Semantics of the bootstrap script *)

(** An abstract git repository: the commit messages on the current
    branch (oldest first), whether the index differs from HEAD, whether
    the working tree differs from the index, the remotes, the local
    configuration, the lines of [.git/info/exclude] and whether the
    reflog has been expired. *)
Record repo := {
  commits : list string;
  staged : bool;
  unstaged : bool;
  remotes : list (string * string);
  gcfg : list (string * string);
  exclude : list string;
  reflog_expired : bool
}.

(** The [.git] entry of a directory. *)
Inductive gitentry :=
| ENone
| EFile               (* a gitfile, as left by a submodule checkout *)
| EDir (r : repo).

(** The source tree at [workspace_path] (read only for the script). *)
Record source_tree := {
  src_git : gitentry;
  src_gitmodules : bool;
  src_nonempty : bool
}.

(** The state the script acts on: the build directory [$BUILD_DIR], the
    current directory, and the simple commands executed so far. *)
Record bstate := {
  b_exists : bool;
  b_git : gitentry;
  b_gitmodules : bool;
  b_nonempty : bool;
  b_in_build : bool;
  b_trace : list scmd
}.

Definition set_git (s : bstate) (g : gitentry) : bstate :=
  {| b_exists := b_exists s; b_git := g; b_gitmodules := b_gitmodules s;
     b_nonempty := b_nonempty s; b_in_build := b_in_build s; b_trace := b_trace s |}.

Definition log_cmd (s : bstate) (c : scmd) : bstate :=
  {| b_exists := b_exists s; b_git := b_git s; b_gitmodules := b_gitmodules s;
     b_nonempty := b_nonempty s; b_in_build := b_in_build s; b_trace := b_trace s ++ [c] |}.

Definition with_repo (r : repo) (cm : list string) (st us : bool)
    (rm : list (string * string)) (cf : list (string * string))
    (ex : list string) (rf : bool) : repo :=
  {| commits := cm; staged := st; unstaged := us; remotes := rm; gcfg := cf;
     exclude := ex; reflog_expired := rf |}.

Fixpoint assoc_has (k : string) (l : list (string * string)) : bool :=
  match l with
  | [] => false
  | (k', _) :: l' => String.eqb k k' || assoc_has k l'
  end.

Fixpoint assoc_get (k : string) (l : list (string * string)) : option string :=
  match l with
  | [] => None
  | (k', v) :: l' => if String.eqb k k' then Some v else assoc_get k l'
  end.

(** [git config k v] / [git remote set-url]: replace the value in place,
    or append a new entry. *)
Fixpoint assoc_set (k v : string) (l : list (string * string)) : list (string * string) :=
  match l with
  | [] => [(k, v)]
  | (k', v') :: l' => if String.eqb k k' then (k', v) :: l' else (k', v') :: assoc_set k v l'
  end.

Definition empty_repo (nonempty : bool) : repo :=
  {| commits := []; staged := false; unstaged := nonempty; remotes := [];
     gcfg := []; exclude := []; reflog_expired := false |}.

Section Shell.
Variable workspace_path : string.
Variable src : source_tree.
(** whether [run_script] runs the script with [set -e] (container.py is
    not part of the sources; both settings are covered). *)
Variable errexit : bool.
(** whether the container's system or global git configuration already
    supplies a commit identity. *)
Variable env_identity : bool.

Definition has_identity (r : repo) : bool :=
  env_identity || (assoc_has "user.name" (gcfg r) && assoc_has "user.email" (gcfg r)).

(** A git subcommand run in the current directory: it needs the build
    directory as current directory and a [.git] directory there;
    otherwise git exits with 128 (not a git repository). *)
Definition in_repo (s : bstate) (f : repo -> gitentry * Z) : bstate * Z :=
  match b_in_build s, b_git s with
  | true, EDir r => let '(g, z) := f r in (set_git s g, z)
  | _, _ => (s, 128%Z)
  end.

(** One simple command: the new state and the exit status. *)
Definition step (s : bstate) (c : scmd) : bstate * Z :=
  match c with
  | Echo _ => (s, 0%Z)
  | Ls WsRoot => (s, 0%Z)
  | Ls _ => (s, 2%Z)
  | CpR WsRoot BuildDir =>
      if b_exists s then
        (* [cp -r SRC DST] with DST an existing directory copies SRC to
           DST/<basename SRC>: new, untracked content in the build tree *)
        ({| b_exists := true;
            b_git := match b_git s with
                     | EDir r => EDir (with_repo r (commits r) (staged r)
                                         (unstaged r || src_nonempty src)
                                         (remotes r) (gcfg r) (exclude r) (reflog_expired r))
                     | g => g
                     end;
            b_gitmodules := b_gitmodules s;
            b_nonempty := b_nonempty s || src_nonempty src;
            b_in_build := b_in_build s; b_trace := b_trace s |}, 0%Z)
      else
        ({| b_exists := true; b_git := src_git src; b_gitmodules := src_gitmodules src;
            b_nonempty := src_nonempty src; b_in_build := b_in_build s;
            b_trace := b_trace s |}, 0%Z)
  | CpR _ _ => (s, 1%Z)
  | RmF BuildGit =>
      match b_git s with
      | EFile => (set_git s ENone, 0%Z)
      | ENone => (s, 0%Z)
      | EDir _ => (s, 1%Z)   (* rm: cannot remove: Is a directory *)
      end
  | RmF _ => (s, 1%Z)
  | Cd BuildDir =>
      if b_exists s then
        ({| b_exists := b_exists s; b_git := b_git s; b_gitmodules := b_gitmodules s;
            b_nonempty := b_nonempty s; b_in_build := true; b_trace := b_trace s |}, 0%Z)
      else (s, 1%Z)
  | Cd _ => (s, 1%Z)
  | GitInit =>
      if b_in_build s then
        match b_git s with
        | ENone => (set_git s (EDir (empty_repo (b_nonempty s))), 0%Z)
        | EDir r => (s, 0%Z)      (* reinitialising an existing repository *)
        | EFile => (s, 128%Z)
        end
      else (s, 0%Z)
  | GitConfig k v =>
      in_repo s (fun r => (EDir (with_repo r (commits r) (staged r) (unstaged r)
                                   (remotes r) (assoc_set k v (gcfg r)) (exclude r)
                                   (reflog_expired r)), 0%Z))
  | GitAdd =>
      in_repo s (fun r => (EDir (with_repo r (commits r) (staged r || unstaged r) false
                                   (remotes r) (gcfg r) (exclude r) (reflog_expired r)), 0%Z))
  | GitCommit m =>
      in_repo s (fun r =>
        if negb (staged r) then (EDir r, 1%Z)              (* nothing to commit *)
        else if negb (has_identity r) then (EDir r, 128%Z) (* no identity *)
        else (EDir (with_repo r (commits r ++ [m]) false (unstaged r)
                      (remotes r) (gcfg r) (exclude r) (reflog_expired r)), 0%Z))
  | GitRemoteSetUrl n p =>
      in_repo s (fun r =>
        if assoc_has n (remotes r)
        then (EDir (with_repo r (commits r) (staged r) (unstaged r)
                      (assoc_set n ("file://" ++ render_path workspace_path p "") (remotes r))
                      (gcfg r) (exclude r) (reflog_expired r)), 0%Z)
        else (EDir r, 2%Z))                                (* No such remote *)
  | GitRemoteAdd n p =>
      in_repo s (fun r =>
        if assoc_has n (remotes r)
        then (EDir r, 3%Z)                                 (* remote already exists *)
        else (EDir (with_repo r (commits r) (staged r) (unstaged r)
                      (remotes r ++ [(n, "file://" ++ render_path workspace_path p "")])
                      (gcfg r) (exclude r) (reflog_expired r)), 0%Z))
  | GitReflogExpire =>
      in_repo s (fun r => (EDir (with_repo r (commits r) (staged r) (unstaged r)
                                   (remotes r) (gcfg r) (exclude r) true), 0%Z))
  | AppendExclude l =>
      (* [>> .git/info/exclude], relative to the current directory *)
      match b_in_build s, b_git s with
      | true, EDir r => (set_git s (EDir (with_repo r (commits r) (staged r) (unstaged r)
                                            (remotes r) (gcfg r) (exclude r ++ [l])
                                            (reflog_expired r))), 0%Z)
      | _, _ => (s, 1%Z)
      end
  | GitSubmoduleUpdate => in_repo s (fun r => (EDir r, 0%Z))
  end.

(** The exit status of a condition is 0 exactly when it holds. *)
Definition eval_cond (s : bstate) (c : cond) : bool :=
  match c with
  | TestF WsGit => match src_git src with EFile => true | _ => false end
  | TestF RelGitmodules => b_in_build s && b_gitmodules s
  | TestF _ => false
  | TestNotD BuildGit => match b_git s with EDir _ => false | _ => true end
  | TestNotD _ => true
  | RemoteGetUrl n =>
      match b_in_build s, b_git s with
      | true, EDir r => assoc_has n (remotes r)
      | _, _ => false
      end
  | DiffCachedQuiet =>
      match b_in_build s, b_git s with
      | true, EDir r => negb (staged r)
      | _, _ => false
      end
  end.

(** Running a simple command records it; under [set -e] a nonzero
    status outside a condition stops the script. *)
Definition run_scmd (s : bstate) (c : scmd) : bstate * Z * bool :=
  let '(s', z) := step (log_cmd s c) c in (s', z, errexit && negb (Z.eqb z 0)).

(** A sequence of simple commands, threading the last exit status; the
    boolean says whether the script stopped. *)
Fixpoint exec_scmds (s : bstate) (st : Z) (l : list scmd) : bstate * Z * bool :=
  match l with
  | [] => (s, st, false)
  | c :: l' =>
      let '(s1, z1, stop) := run_scmd s c in
      if stop then (s1, z1, true) else exec_scmds s1 z1 l'
  end.

Definition exec_cmd (s : bstate) (st : Z) (c : cmd) : bstate * Z * bool :=
  match c with
  | Simple sc => run_scmd s sc
  | If cnd th el =>
      if eval_cond s cnd then exec_scmds s 0%Z th
      else match el with
           | Some e => exec_scmds s 0%Z e
           | None => (s, 0%Z, false)
           end
  end.

Fixpoint exec (s : bstate) (st : Z) (prog : list cmd) : bstate * Z * bool :=
  match prog with
  | [] => (s, st, false)
  | c :: prog' =>
      let '(s1, z1, stop) := exec_cmd s st c in
      if stop then (s1, z1, true) else exec s1 z1 prog'
  end.
End Shell.

(** A fresh build directory, before the first run. *)
Definition fresh_build : bstate :=
  {| b_exists := false; b_git := ENone; b_gitmodules := false; b_nonempty := false;
     b_in_build := false; b_trace := [] |}.

(** Running the bootstrap script: the final state and the script's exit
    status. *)
Definition run_bootstrap (w : string) (t : source_tree) (errexit idn : bool)
    (s : bstate) : bstate * Z :=
  let '(s', z, _) := exec w t errexit idn s 0%Z clone_program in (s', z).

(** A later invocation of the script: a new shell (not in the build
    directory, empty trace) over the same build directory. *)
Definition new_shell (s : bstate) : bstate :=
  {| b_exists := b_exists s; b_git := b_git s; b_gitmodules := b_gitmodules s;
     b_nonempty := b_nonempty s; b_in_build := false; b_trace := [] |}.

(* ================================================================== *)
(** ** [_get_origin] *)

(** Python name resolution inside a function body: the local scope, then
    the module globals of repository.py, then the builtins used here. *)
Definition module_globals : list string :=
  ["logging"; "os"; "TypeVar"; "cast"; "config"; "StepRunContext";
   "CloneSettings"; "Image"; "logger"; "T"; "RepositoryCloner"].

Definition builtins : list string := ["hasattr"; "bool"; "next"; "str"; "Exception"].

(** Evaluating a bare name: [NameError] when no scope binds it. *)
Definition resolve_name (locals : list string) (n : string) : result unit :=
  if existsb (String.eqb n) locals || existsb (String.eqb n) module_globals
     || existsb (String.eqb n) builtins
  then Ok tt else Raise (NameError n).

(** [_get_origin()], a [@staticmethod] without parameters: its local
    scope holds only [parent_repo_path], so [self] is not bound.  [self_has_parent]
    stands for the value [hasattr(self, '_parent_repo_path') and
    self._parent_repo_path] would have if [self] were bound, with
    [self_parent] its path. *)
Definition _get_origin (os_environ : environ) (config : Config)
    (self_has_parent : bool) (self_parent : string) : result string :=
  let parent_repo_path := environ_get os_environ PARENT_VAR in
  match parent_repo_path with
  | Some p => if str_truthy p then Ok ("file://" ++ p) else
      match resolve_name ["parent_repo_path"] "self" with
      | Raise e => Raise e
      | Ok _ => if self_has_parent then Ok ("file://" ++ self_parent)
                else Ok ("file://" ++ remote_workspace_dir config)
      end
  | None =>
      match resolve_name ["parent_repo_path"] "self" with
      | Raise e => Raise e
      | Ok _ => if self_has_parent then Ok ("file://" ++ self_parent)
                else Ok ("file://" ++ remote_workspace_dir config)
      end
  end.

(* ================================================================== *)
(** ** The [clone] orchestrator *)

(** [Image(name=..., run_as_user=...)]. *)
Record Image := { image_name : string; run_as_user : option string }.

(** The calls the orchestrator makes, in order. *)
Inductive event :=
| EvInfo (msg : string)                     (* logger.info *)
| EvNewRunner (name : string) (img : Image)  (* ContainerRunner(...) *)
| EvStart
| EvRunCommand (command : string) (user : Z)
| EvRunScript (lines : list string)
| EvStop.

(** Modelled from the spec: the container runtime [ContainerRunner]
    (container.py, not among the sources), through the capability set of
    §6: [start()] may fail, [run_command] and [run_script] return an exit
    status (or raise), and [stop()] is safe to call after any failure. *)
Record runtime := {
  rt_start : result unit;
  rt_run_command : string -> Z -> result Z;
  rt_run_script : list string -> result Z
}.

(** Calls to the runtime are recorded in a trace; exceptions propagate. *)
Definition M (A : Type) := list event -> list event * result A.

Definition ret {A} (a : A) : M A := fun tr => (tr, Ok a).
Definition bind {A B} (m : M A) (f : A -> M B) : M B :=
  fun tr => match m tr with
            | (tr', Ok a) => f a tr'
            | (tr', Raise e) => (tr', Raise e)
            end.
Definition emit (e : event) : M unit := fun tr => ((tr ++ [e])%list, Ok tt).
Definition lift {A} (r : result A) : M A := fun tr => (tr, r).
Definition raise {A} (e : pyexc) : M A := fun tr => (tr, Raise e).

(** [try: body finally: fin], with a [fin] that does not raise. *)
Definition try_finally {A} (body : M A) (fin : M unit) : M A :=
  fun tr => let '(tr1, r) := body tr in
            let '(tr2, _) := fin tr1 in (tr2, r).

Notation "x <- m ;; k" := (bind m (fun x => k)) (at level 61, m at next level, right associativity).
Notation "m ;; k" := (bind m (fun _ => k)) (at level 61, right associativity).

(** The fields of a [RepositoryCloner] the orchestrator reads. *)
Record RepositoryCloner := {
  _step_clone_settings : CloneSettings;
  _global_clone_settings : CloneSettings;
  _user : option string;
  _name : string
}.

Definition safe_directory_command (config : Config) : string :=
  "git config --system --add safe.directory '" ++ remote_workspace_dir config ++ "/.git'".

Definition clone_error : pyexc := Exception_ "Error setting up repository".

(** [clone(self)]. *)
Definition clone (default_settings : CloneSettings) (self : RepositoryCloner)
    (os_environ : environ) (config : Config) (runner : runtime) : M unit :=
  if negb (_should_clone default_settings (_step_clone_settings self)
                                          (_global_clone_settings self)) then
    emit (EvInfo "Clone disabled: skipping");;
    ret tt
  else
    let image := {| image_name := "alpine/git"; run_as_user := _user self |} in
    emit (EvNewRunner (_name self) image);;
    emit EvStart;;
    lift (rt_start runner);;
    try_finally
      (let command := safe_directory_command config in
       emit (EvRunCommand command 0);;
       exit_code <- lift (rt_run_command runner command 0);;
       if int_truthy exit_code then raise clone_error else
       let clone_script := _get_clone_script os_environ config in
       emit (EvRunScript clone_script);;
       exit_code <- lift (rt_run_script runner clone_script);;
       if int_truthy exit_code then raise clone_error else ret tt)
      (emit EvStop).

(* ================================================================== *)
(** ** [__init__] and [_get_clone_command] *)

Fixpoint string_of_uint (u : Decimal.uint) : string :=
  match u with
  | Decimal.Nil => ""
  | Decimal.D0 u' => "0" ++ string_of_uint u'
  | Decimal.D1 u' => "1" ++ string_of_uint u'
  | Decimal.D2 u' => "2" ++ string_of_uint u'
  | Decimal.D3 u' => "3" ++ string_of_uint u'
  | Decimal.D4 u' => "4" ++ string_of_uint u'
  | Decimal.D5 u' => "5" ++ string_of_uint u'
  | Decimal.D6 u' => "6" ++ string_of_uint u'
  | Decimal.D7 u' => "7" ++ string_of_uint u'
  | Decimal.D8 u' => "8" ++ string_of_uint u'
  | Decimal.D9 u' => "9" ++ string_of_uint u'
  end.

(** Python [str(n)] for an int: its decimal digits, with a leading [-]
    when negative. *)
Definition py_str_int (z : Z) : string :=
  match Z.to_int z with
  | Decimal.Pos u => string_of_uint u
  | Decimal.Neg u => "-" ++ string_of_uint u
  end.

(** [user: int | str | None]. *)
Inductive user_arg := UInt (n : Z) | UStr (s : string) | UNone.

(** The parts of [StepRunContext] (context.py) that [__init__] reads:
    [ctx.step.clone_settings] and [ctx.pipeline_ctx.clone_settings]. *)
Record StepRunContext := {
  step_clone_settings : CloneSettings;
  pipeline_clone_settings : CloneSettings
}.

(** [__init__]: the fields [clone] reads. *)
Definition make_cloner (ctx : StepRunContext) (user : user_arg)
    (parent_container_name : string) : RepositoryCloner :=
  {| _step_clone_settings := step_clone_settings ctx;
     _global_clone_settings := pipeline_clone_settings ctx;
     _user := match user with
              | UNone => None                     (* user is None *)
              | UInt n => Some (py_str_int n)     (* str(user) *)
              | UStr s => Some s
              end;
     _name := parent_container_name ++ "-clone" |}.

(** Python truthiness of the resolved [depth] ([if clone_depth:]). *)
Definition depth_truthy (d : option depth_val) : bool :=
  match d with
  | None => false
  | Some (DInt n) => int_truthy n
  | Some (DStr s) => str_truthy s
  end.

(** [str(clone_depth)]. *)
Definition py_str_depth (d : depth_val) : string :=
  match d with DInt n => py_str_int n | DStr s => s end.

(** [_get_clone_command(self, origin)]; [current_branch] is the value of
    [self._repository.get_current_branch()]. *)
Definition _get_clone_command (default_settings : CloneSettings) (self : RepositoryCloner)
    (current_branch origin : string) : string :=
  let step := _step_clone_settings self in
  let glob := _global_clone_settings self in
  let git_clone_cmd : list string := [] in
  let git_clone_cmd :=
    if negb (_should_clone_lfs default_settings step glob)
    then (git_clone_cmd ++ ["GIT_LFS_SKIP_SMUDGE=1"])%list else git_clone_cmd in
  let branch := current_branch in
  let git_clone_cmd := (git_clone_cmd ++ ["git"; "clone"; ("--branch='" ++ branch ++ "'")%string])%list in
  let clone_depth := _get_clone_depth default_settings step glob in
  let git_clone_cmd :=
    match clone_depth with
    | Some d => if depth_truthy clone_depth
                then (git_clone_cmd ++ ["--depth"; py_str_depth d])%list else git_clone_cmd
    | None => git_clone_cmd
    end in
  let git_clone_cmd := (git_clone_cmd ++ [origin; "$BUILD_DIR"])%list in
  String.concat " " git_clone_cmd.

(* ================================================================== *)
(** ** Lemmas on the script semantics *)

Open Scope list_scope.

(** The simple commands a program may run. *)
Definition cmd_scmds (c : cmd) : list scmd :=
  match c with
  | Simple sc => [sc]
  | If _ th el => th ++ match el with Some e => e | None => [] end
  end.

Definition prog_scmds (prog : list cmd) : list scmd := flat_map cmd_scmds prog.

(** The first commit directive run, with its message. *)
Fixpoint first_commit (tr : list scmd) : option string :=
  match tr with
  | [] => None
  | GitCommit m :: _ => Some m
  | _ :: tr' => first_commit tr'
  end.

Section ShellFacts.
Variables (w : string) (t : source_tree) (errexit idn : bool).

Lemma exec_app (s : bstate) (st : Z) (p1 p2 : list cmd) :
  exec w t errexit idn s st (p1 ++ p2) =
  match exec w t errexit idn s st p1 with
  | (s1, z1, true) => (s1, z1, true)
  | (s1, z1, false) => exec w t errexit idn s1 z1 p2
  end.
Proof.
  revert s st; induction p1 as [|c p1 IH]; intros s st; simpl; [reflexivity|].
  destruct (exec_cmd w t errexit idn s st c) as [[s1 z1] []]; [reflexivity|].
  apply IH.
Qed.

(** Each step only appends to the trace, and only what it runs. *)
Lemma step_trace (s : bstate) (c : scmd) :
  b_trace (fst (step w t idn s c)) = b_trace s.
Proof.
  destruct c; simpl; try reflexivity;
    repeat match goal with
           | |- context [match ?x with _ => _ end] => destruct x
           | _ => progress unfold in_repo
           end; simpl; reflexivity.
Qed.

Lemma run_scmd_trace (s : bstate) (c : scmd) :
  b_trace (fst (fst (run_scmd w t errexit idn s c))) = b_trace s ++ [c].
Proof.
  unfold run_scmd.
  pose proof (step_trace (log_cmd s c) c) as H.
  destruct (step w t idn (log_cmd s c) c) as [s' z]; simpl in *. exact H.
Qed.

Lemma exec_scmds_trace (s : bstate) (st : Z) (l : list scmd) :
  exists added, b_trace (fst (fst (exec_scmds w t errexit idn s st l))) = b_trace s ++ added
                /\ incl added l.
Proof.
  revert s st; induction l as [|c l IH]; intros s st; simpl.
  - exists []. split; [now rewrite app_nil_r | intros x []].
  - pose proof (run_scmd_trace s c) as Hc.
    destruct (run_scmd w t errexit idn s c) as [[s1 z1] stop]; simpl in Hc.
    destruct stop; simpl.
    + exists [c]. split; [exact Hc | intros x [<- | []]; left; reflexivity].
    + destruct (IH s1 z1) as [added [Ha Hi]].
      exists (c :: added). split.
      * rewrite Ha, Hc, <- app_assoc. reflexivity.
      * intros x [<- | Hx]; [left; reflexivity | right; apply Hi, Hx].
Qed.

Lemma exec_cmd_trace (s : bstate) (st : Z) (c : cmd) :
  exists added, b_trace (fst (fst (exec_cmd w t errexit idn s st c))) = b_trace s ++ added
                /\ incl added (cmd_scmds c).
Proof.
  destruct c as [sc | cnd th el]; simpl.
  - exists [sc]. split; [apply run_scmd_trace | intros x [<- | []]; left; reflexivity].
  - destruct (eval_cond t s cnd).
    + destruct (exec_scmds_trace s 0 th) as [a [Ha Hi]].
      exists a. split; [exact Ha | intros x Hx; apply in_or_app; left; apply Hi, Hx].
    + destruct el as [e|].
      * destruct (exec_scmds_trace s 0 e) as [a [Ha Hi]].
        exists a. split; [exact Ha | intros x Hx; apply in_or_app; right; apply Hi, Hx].
      * exists []. split; [now rewrite app_nil_r | intros x []].
Qed.

Lemma exec_trace (s : bstate) (st : Z) (prog : list cmd) :
  exists added, b_trace (fst (fst (exec w t errexit idn s st prog))) = b_trace s ++ added
                /\ incl added (prog_scmds prog).
Proof.
  revert s st; induction prog as [|c prog IH]; intros s st; simpl.
  - exists []. split; [now rewrite app_nil_r | intros x []].
  - pose proof (exec_cmd_trace s st c) as [a [Ha Hi]].
    destruct (exec_cmd w t errexit idn s st c) as [[s1 z1] stop]; simpl in Ha.
    destruct stop; simpl.
    + exists a. split; [exact Ha | intros x Hx; apply in_or_app; left; apply Hi, Hx].
    + destruct (IH s1 z1) as [a' [Ha' Hi']].
      exists (a ++ a'). split.
      * rewrite Ha', Ha, app_assoc. reflexivity.
      * intros x Hx; apply in_app_or in Hx as [Hx|Hx]; apply in_or_app;
          [left; apply Hi, Hx | right; apply Hi', Hx].
Qed.
End ShellFacts.

Lemma first_commit_app (tr tr' : list scmd) (m : string) :
  first_commit tr = Some m -> first_commit (tr ++ tr') = Some m.
Proof.
  induction tr as [|c tr IH]; simpl; [discriminate|].
  destruct c; auto.
Qed.

Lemma str_truthy_nonempty (p : string) : p <> ""%string -> str_truthy p = true.
Proof. destruct p; [congruence | reflexivity]. Qed.

Lemma int_truthy_nonzero (z : Z) : z <> 0%Z -> int_truthy z = true.
Proof. intro H. unfold int_truthy. apply Z.eqb_neq in H. now rewrite H. Qed.

(** Number of [stop()] calls in a trace. *)
Fixpoint count_stop (tr : list event) : nat :=
  match tr with
  | [] => 0
  | EvStop :: tr' => S (count_stop tr')
  | _ :: tr' => count_stop tr'
  end.


(** The first present value, in the order step, pipeline, default. *)
Definition first_present {T : Type} (s g d : option T) (v : T) : Prop :=
  s = Some v \/ (s = None /\ g = Some v) \/ (s = None /\ g = None /\ d = Some v).

(** [r] is the resolution of the layers [s], [g], [d]: the first present
    value, absent exactly when all three are. *)
Definition resolves_in_order {T : Type} (s g d r : option T) : Prop :=
  (forall v, r = Some v <-> first_present s g d v) /\
  (r = None <-> s = None /\ g = None /\ d = None).

Lemma first_non_none_value_in_order {T : Type} (s g d : option T) :
  resolves_in_order s g d (_first_non_none_value [s; g; d]).
Proof.
  unfold resolves_in_order, first_present.
  destruct s as [a|], g as [b|], d as [c|]; simpl;
    (split; [intro v; split | split]); intros;
    repeat match goal with
           | H : _ \/ _ |- _ => destruct H
           | H : _ /\ _ |- _ => destruct H
           end;
    try congruence; auto; try (now left); try (now right; left; auto);
    try (now right; right; auto).
Qed.

(** Script rendering facts used by the path claims: the copy directive
    and the two [origin] directives of a script built for path [w]. *)
Definition script_uses_path (script : list string) (w : string) : Prop :=
  script = render w clone_program /\
  nth_error script 2 = Some ("cp -r " ++ w ++ " $BUILD_DIR")%string /\
  nth_error script 39 = Some ("  git remote set-url origin file://" ++ w)%string /\
  nth_error script 42 = Some ("  git remote add origin file://" ++ w)%string.

Lemma script_uses_resolved_path (os_environ : environ) (config : Config) :
  script_uses_path (_get_clone_script os_environ config)
                   (resolve_workspace_path os_environ config).
Proof.
  rewrite <- render_clone_program.
  generalize (resolve_workspace_path os_environ config); intro w.
  unfold script_uses_path. split; [reflexivity|].
  cbn. rewrite !append_empty_r. repeat split.
Qed.

Lemma get_origin_no_override (os_environ : environ) (config : Config) b sp :
  match environ_get os_environ PARENT_VAR with
  | Some p => str_truthy p = false
  | None => True
  end ->
  _get_origin os_environ config b sp = Raise (NameError "self").
Proof.
  unfold _get_origin. destruct (environ_get os_environ PARENT_VAR) as [p|]; intro H.
  - rewrite H. reflexivity.
  - reflexivity.
Qed.

(* ================================================================== *)
(** ** Claims *)

(** C1: for each field (enabled, lfs, depth) and every combination of
    present and absent values in the step, pipeline and default settings,
    the resolved value is the first present one in that order, absent only
    when all three are absent; [_should_clone] and [_should_clone_lfs]
    take the Python [bool] of that resolved value. *)
Theorem clone_settings_resolution (default_settings step glob : CloneSettings) :
  resolves_in_order (enabled step) (enabled glob) (enabled default_settings)
    (_first_non_none_value [enabled step; enabled glob; enabled default_settings]) /\
  resolves_in_order (lfs step) (lfs glob) (lfs default_settings)
    (_first_non_none_value [lfs step; lfs glob; lfs default_settings]) /\
  resolves_in_order (depth step) (depth glob) (depth default_settings)
    (_get_clone_depth default_settings step glob) /\
  _should_clone default_settings step glob =
    py_bool (_first_non_none_value [enabled step; enabled glob; enabled default_settings]) /\
  _should_clone_lfs default_settings step glob =
    py_bool (_first_non_none_value [lfs step; lfs glob; lfs default_settings]).
Proof.
  split; [apply first_non_none_value_in_order|].
  split; [apply first_non_none_value_in_order|].
  split; [apply first_non_none_value_in_order|].
  split; reflexivity.
Qed.

(** C2: when the resolved [enabled] setting is false, [clone] only logs
    the informational skip notice and returns normally: no runner is
    created, [start()] is never called and no command or script runs. *)
Theorem clone_disabled_skips (default_settings : CloneSettings) (self : RepositoryCloner)
    (os_environ : environ) (config : Config) (runner : runtime) (tr : list event)
    (Hoff : _should_clone default_settings (_step_clone_settings self)
                                         (_global_clone_settings self) = false) :
  clone default_settings self os_environ config runner tr
  = (tr ++ [EvInfo "Clone disabled: skipping"], Ok tt).
Proof.
  unfold clone. rewrite Hoff. reflexivity.
Qed.

Lemma clone_disabled_skips_witness :
  let default_settings := {| enabled := Some true; lfs := None; depth := None |} in
  let self := {| _step_clone_settings := {| enabled := None; lfs := None; depth := None |};
                 _global_clone_settings := {| enabled := Some false; lfs := None; depth := None |};
                 _user := None; _name := "step-clone" |} in
  let runner := {| rt_start := Ok tt; rt_run_command := fun _ _ => Ok 0%Z;
                   rt_run_script := fun _ => Ok 0%Z |} in
  clone default_settings self [] {| remote_workspace_dir := "/ws" |} runner []
  = ([EvInfo "Clone disabled: skipping"], Ok tt).
Proof.
  intros default_settings self runner.
  apply (clone_disabled_skips default_settings self [] {| remote_workspace_dir := "/ws" |}
           runner []).
  reflexivity.
Defined.

(** C3: once [start()] has succeeded, every exit path of [clone] calls
    [stop()] exactly once, as its last runtime call (normal completion,
    failures and exceptions raised by the runtime alike); a nonzero exit
    status of [run_command] or of [run_script] makes [clone] raise the one
    generic error "Error setting up repository" after that [stop()]. *)
Theorem clone_failure_stops_once (default_settings : CloneSettings) (self : RepositoryCloner)
    (os_environ : environ) (config : Config) (runner : runtime)
    (Hon : _should_clone default_settings (_step_clone_settings self)
                                        (_global_clone_settings self) = true)
    (Hstart : rt_start runner = Ok tt) :
  let '(tr, r) := clone default_settings self os_environ config runner [] in
  (count_stop tr = 1 /\ last tr EvStart = EvStop) /\
  (forall z, rt_run_command runner (safe_directory_command config) 0 = Ok z ->
             z <> 0%Z -> r = Raise clone_error) /\
  (rt_run_command runner (safe_directory_command config) 0 = Ok 0%Z ->
   forall z, rt_run_script runner (_get_clone_script os_environ config) = Ok z ->
             z <> 0%Z -> r = Raise clone_error).
Proof.
  unfold clone. rewrite Hon.
  remember (safe_directory_command config) as command eqn:Ecmd.
  remember (_get_clone_script os_environ config) as script eqn:Escript.
  unfold try_finally, bind, emit, lift, raise, ret. cbn. rewrite Hstart. cbn.
  destruct (rt_run_command runner command 0) as [z|e] eqn:Hc; cbn.
  - destruct (int_truthy z) eqn:Hz; cbn.
    + split; [split; reflexivity|].
      split; [intros z' Hz' _; reflexivity|].
      intros H0; inversion H0; subst; discriminate.
    + destruct (rt_run_script runner script) as [y|e] eqn:Hs;
        idtac.
      * destruct (int_truthy y) eqn:Hy; idtac.
        -- split; [split; reflexivity|].
           split; [|intros _ y' Hy' _; reflexivity].
           intros z' Hz' Hnz. inversion Hz'; subst.
           rewrite int_truthy_nonzero in Hz by exact Hnz. discriminate.
        -- split; [split; reflexivity|].
           split.
           ++ intros z' Hz' Hnz. inversion Hz'; subst.
              rewrite int_truthy_nonzero in Hz by exact Hnz. discriminate.
           ++ intros _ y' Hy' Hnz. inversion Hy'; subst.
              rewrite int_truthy_nonzero in Hy by exact Hnz. discriminate.
      * split; [split; reflexivity|].
        split.
        -- intros z' Hz' Hnz. inversion Hz'; subst.
           rewrite int_truthy_nonzero in Hz by exact Hnz. discriminate.
        -- intros _ y' Hy'. discriminate.
  - split; [split; reflexivity|].
    split; intros; discriminate.
Qed.

Lemma clone_failure_stops_once_witness :
  let default_settings := {| enabled := Some true; lfs := None; depth := None |} in
  let self := {| _step_clone_settings := {| enabled := None; lfs := None; depth := None |};
                 _global_clone_settings := {| enabled := None; lfs := None; depth := None |};
                 _user := None; _name := "step-clone" |} in
  let runner := {| rt_start := Ok tt; rt_run_command := fun _ _ => Ok 0%Z;
                   rt_run_script := fun _ => Ok 1%Z |} in
  let config := {| remote_workspace_dir := "/ws" |} in
  let '(tr, r) := clone default_settings self [] config runner [] in
  (count_stop tr = 1 /\ last tr EvStart = EvStop) /\
  (forall z, rt_run_command runner (safe_directory_command config) 0 = Ok z ->
             z <> 0%Z -> r = Raise clone_error) /\
  (rt_run_command runner (safe_directory_command config) 0 = Ok 0%Z ->
   forall z, rt_run_script runner (_get_clone_script [] config) = Ok z ->
             z <> 0%Z -> r = Raise clone_error).
Proof.
  intros default_settings self runner config.
  exact (clone_failure_stops_once default_settings self [] config runner
           eq_refl eq_refl).
Defined.

(** C8: before the bootstrap script, [clone] runs exactly one command,
    [git config --system --add safe.directory '<remote_workspace_dir>/.git'],
    as user 0, right after [start()]; no other [run_command] follows, and
    a nonzero exit status of it raises the generic error with only
    [stop()] after it, so the script never runs. *)
Theorem clone_marks_safe_directory (default_settings : CloneSettings) (self : RepositoryCloner)
    (os_environ : environ) (config : Config) (runner : runtime)
    (Hon : _should_clone default_settings (_step_clone_settings self)
                                        (_global_clone_settings self) = true)
    (Hstart : rt_start runner = Ok tt) :
  let '(tr, r) := clone default_settings self os_environ config runner [] in
  exists rest,
    tr = [EvNewRunner (_name self) {| image_name := "alpine/git"; run_as_user := _user self |};
          EvStart;
          EvRunCommand ("git config --system --add safe.directory '"
                        ++ remote_workspace_dir config ++ "/.git'")%string 0] ++ rest /\
    (forall c u, ~ In (EvRunCommand c u) rest) /\
    (forall z, rt_run_command runner (safe_directory_command config) 0 = Ok z -> z <> 0%Z ->
               r = Raise clone_error /\ rest = [EvStop]).
Proof.
  change ("git config --system --add safe.directory '"
          ++ remote_workspace_dir config ++ "/.git'")%string
    with (safe_directory_command config).
  unfold clone. rewrite Hon.
  remember (safe_directory_command config) as command eqn:Ecmd.
  remember (_get_clone_script os_environ config) as script eqn:Escript.
  unfold try_finally, bind, emit, lift, raise, ret. cbn. rewrite Hstart. cbn.
  destruct (rt_run_command runner command 0) as [z|e] eqn:Hc; cbn.
  - destruct (int_truthy z) eqn:Hz; cbn.
    + eexists; split; [reflexivity|]. split.
      * intros c u [H|[]]; discriminate.
      * intros z' Hz' _. split; reflexivity.
    + assert (Hzero : forall z', Ok z = Ok z' -> z' <> 0%Z -> False).
      { intros z' Hz' Hnz. inversion Hz'; subst.
        rewrite int_truthy_nonzero in Hz by exact Hnz. discriminate. }
      destruct (rt_run_script runner script) as [y|e];
        idtac;
        [destruct (int_truthy y); idtac|];
        (eexists; split; [reflexivity|]); split;
        try (intros c u H; simpl in H;
             repeat match goal with H : _ \/ _ |- _ => destruct H end;
             solve [discriminate | contradiction]);
        intros z' Hz' Hnz; exfalso; exact (Hzero z' Hz' Hnz).
  - eexists; split; [reflexivity|]. split.
    + intros c u [H|[]]; discriminate.
    + intros; discriminate.
Qed.

Lemma clone_marks_safe_directory_witness :
  let default_settings := {| enabled := Some true; lfs := None; depth := None |} in
  let self := {| _step_clone_settings := {| enabled := None; lfs := None; depth := None |};
                 _global_clone_settings := {| enabled := None; lfs := None; depth := None |};
                 _user := Some "1000"; _name := "step-clone" |} in
  let runner := {| rt_start := Ok tt; rt_run_command := fun _ _ => Ok 1%Z;
                   rt_run_script := fun _ => Ok 0%Z |} in
  let config := {| remote_workspace_dir := "/ws" |} in
  let '(tr, r) := clone default_settings self [] config runner [] in
  exists rest,
    tr = [EvNewRunner (_name self) {| image_name := "alpine/git"; run_as_user := _user self |};
          EvStart;
          EvRunCommand ("git config --system --add safe.directory '"
                        ++ remote_workspace_dir config ++ "/.git'")%string 0] ++ rest /\
    (forall c u, ~ In (EvRunCommand c u) rest) /\
    (forall z, rt_run_command runner (safe_directory_command config) 0 = Ok z -> z <> 0%Z ->
               r = Raise clone_error /\ rest = [EvStop]).
Proof.
  intros default_settings self runner config.
  exact (clone_marks_safe_directory default_settings self [] config runner
           eq_refl eq_refl).
Defined.

(** C9: the script depends on the environment snapshot and the
    configuration only through the resolved workspace path: two calls
    that resolve the same path emit the same directives, in the same
    order. *)
Theorem clone_script_deterministic (env1 env2 : environ) (config1 config2 : Config)
    (Hpath : resolve_workspace_path env1 config1 = resolve_workspace_path env2 config2) :
  _get_clone_script env1 config1 = _get_clone_script env2 config2.
Proof.
  rewrite <- !render_clone_program, Hpath. reflexivity.
Qed.

Lemma clone_script_deterministic_witness :
  resolve_workspace_path [] {| remote_workspace_dir := "/parent/src" |}
  = resolve_workspace_path [(PARENT_VAR, "/parent/src")] {| remote_workspace_dir := "/ws" |} /\
  _get_clone_script [] {| remote_workspace_dir := "/parent/src" |}
  = _get_clone_script [(PARENT_VAR, "/parent/src")] {| remote_workspace_dir := "/ws" |}.
Proof.
  assert (H : resolve_workspace_path [] {| remote_workspace_dir := "/parent/src" |}
              = resolve_workspace_path [(PARENT_VAR, "/parent/src")]
                                       {| remote_workspace_dir := "/ws" |})
    by reflexivity.
  split; [exact H | exact (clone_script_deterministic _ _ _ _ H)].
Defined.

(** C6 (as amended): when PIPELINE_RUNNER_PARENT_REPO_PATH is set to a
    non-empty value, the script copies from that path and registers
    [origin] against it; when it is unset or set to the empty string, every
    path-bearing directive uses [config.remote_workspace_dir]. *)
Theorem workspace_override_paths (os_environ : environ) (config : Config) :
  (forall p, environ_get os_environ PARENT_VAR = Some p -> p <> ""%string ->
             script_uses_path (_get_clone_script os_environ config) p) /\
  ((environ_get os_environ PARENT_VAR = None \/
    environ_get os_environ PARENT_VAR = Some ""%string) ->
   script_uses_path (_get_clone_script os_environ config) (remote_workspace_dir config)).
Proof.
  pose proof (script_uses_resolved_path os_environ config) as H.
  unfold resolve_workspace_path in H. split.
  - intros p Hp Hne. rewrite Hp, (str_truthy_nonempty p Hne) in H. exact H.
  - intros [Hp|Hp]; rewrite Hp in H; exact H.
Qed.

Lemma workspace_override_paths_witness :
  script_uses_path (_get_clone_script [(PARENT_VAR, "/parent/src")]
                                      {| remote_workspace_dir := "/ws" |}) "/parent/src" /\
  script_uses_path (_get_clone_script [] {| remote_workspace_dir := "/ws" |}) "/ws".
Proof.
  split.
  - apply (proj1 (workspace_override_paths [(PARENT_VAR, "/parent/src")]
                    {| remote_workspace_dir := "/ws" |}) "/parent/src");
      [reflexivity | discriminate].
  - apply (proj2 (workspace_override_paths [] {| remote_workspace_dir := "/ws" |})).
    left; reflexivity.
Defined.

(** C6, as stated, fails when the variable is set to the empty string:
    the [if parent_repo_path:] test treats it as unset and the script
    copies from the configured workspace instead. *)
Lemma workspace_override_empty_counterexample :
  ~ (forall os_environ config p,
       environ_get os_environ PARENT_VAR = Some p ->
       script_uses_path (_get_clone_script os_environ config) p).
Proof.
  intro H.
  destruct (H [(PARENT_VAR, "")] {| remote_workspace_dir := "/ws" |} "" eq_refl)
    as [_ [H2 _]].
  vm_compute in H2. discriminate H2.
Qed.

(** C10 (as amended): [_get_origin] raises [NameError] on [self] whenever
    PIPELINE_RUNNER_PARENT_REPO_PATH is unset or empty, so its fallback to
    [file://<config.remote_workspace_dir>] is never returned; when the
    variable holds a non-empty path it returns [file://<path>], and that is
    its only way to return. *)
Theorem get_origin_outcomes (os_environ : environ) (config : Config)
    (self_has_parent : bool) (self_parent : string) :
  ((environ_get os_environ PARENT_VAR = None \/
    environ_get os_environ PARENT_VAR = Some ""%string) ->
   _get_origin os_environ config self_has_parent self_parent = Raise (NameError "self")) /\
  (forall p, environ_get os_environ PARENT_VAR = Some p -> p <> ""%string ->
             _get_origin os_environ config self_has_parent self_parent
             = Ok ("file://" ++ p)%string) /\
  (forall x, _get_origin os_environ config self_has_parent self_parent = Ok x ->
             exists p, environ_get os_environ PARENT_VAR = Some p /\ p <> ""%string /\
                       x = ("file://" ++ p)%string).
Proof.
  split; [|split].
  - intros [Hp|Hp]; apply get_origin_no_override; rewrite Hp; reflexivity.
  - intros p Hp Hne. unfold _get_origin. rewrite Hp, (str_truthy_nonempty p Hne).
    reflexivity.
  - intros x. unfold _get_origin.
    destruct (environ_get os_environ PARENT_VAR) as [p|]; [|discriminate].
    destruct p as [|a p']; simpl; [discriminate|].
    intro Hx; inversion Hx; subst. exists (String a p'). split; [reflexivity|].
    split; [discriminate | reflexivity].
Qed.

Lemma get_origin_outcomes_witness :
  _get_origin [] {| remote_workspace_dir := "/ws" |} false "" = Raise (NameError "self") /\
  _get_origin [(PARENT_VAR, "/parent/src")] {| remote_workspace_dir := "/ws" |} false ""
  = Ok "file:///parent/src".
Proof.
  split.
  - apply (proj1 (get_origin_outcomes [] {| remote_workspace_dir := "/ws" |} false "")).
    left; reflexivity.
  - apply (proj1 (proj2 (get_origin_outcomes [(PARENT_VAR, "/parent/src")]
                           {| remote_workspace_dir := "/ws" |} false ""))
             "/parent/src"); [reflexivity | discriminate].
Defined.

(** C10, as stated, fails when the variable is set to the empty string:
    [_get_origin] then raises [NameError] instead of returning
    [file://]. *)
Lemma get_origin_empty_counterexample :
  ~ (forall os_environ config b sp p,
       environ_get os_environ PARENT_VAR = Some p ->
       _get_origin os_environ config b sp = Ok ("file://" ++ p)%string).
Proof.
  intro H.
  specialize (H [(PARENT_VAR, "")] {| remote_workspace_dir := "/ws" |} false "" ""
                eq_refl).
  vm_compute in H. discriminate H.
Qed.

Lemma assoc_get_set (k v : string) (l : list (string * string)) :
  assoc_get k (assoc_set k v l) = Some v.
Proof.
  induction l as [|[k' v'] l IH]; simpl.
  - now rewrite String.eqb_refl.
  - destruct (String.eqb k k') eqn:E; simpl; rewrite ?E; [reflexivity | exact IH].
Qed.

Lemma assoc_set_keys (k v : string) (l : list (string * string)) :
  assoc_has k l = true -> map fst (assoc_set k v l) = map fst l.
Proof.
  induction l as [|[k' v'] l IH]; simpl; [discriminate|].
  destruct (String.eqb k k'); simpl; [reflexivity|].
  intro H. now rewrite IH.
Qed.

Lemma assoc_get_snoc (k v : string) (l : list (string * string)) :
  assoc_has k l = false -> assoc_get k (l ++ [(k, v)]) = Some v.
Proof.
  induction l as [|[k' v'] l IH]; simpl.
  - intros _. now rewrite String.eqb_refl.
  - destruct (String.eqb k k'); simpl; [discriminate|]. exact IH.
Qed.

(** C7: the [origin] block of the script, run in the build repository,
    succeeds and leaves [origin] pointing at [file://<workspace path>]:
    when [origin] already exists it runs [git remote set-url] and the
    remote names are unchanged (no second entry); otherwise it runs
    [git remote add] and appends the one entry. *)
Theorem origin_registration (w : string) (t : source_tree) (errexit idn : bool)
    (s : bstate) (st : Z) (r : repo)
    (Hin : b_in_build s = true) (Hgit : b_git s = EDir r) :
  In origin_block clone_program /\
  let '(s', z, stop) := exec_cmd w t errexit idn s st origin_block in
  z = 0%Z /\ stop = false /\
  exists r', b_git s' = EDir r' /\
    assoc_get "origin" (remotes r') = Some ("file://" ++ w)%string /\
    if assoc_has "origin" (remotes r)
    then map fst (remotes r') = map fst (remotes r) /\
         b_trace s' = b_trace s ++ [GitRemoteSetUrl "origin" WsRoot;
                                    Echo [Lit "Updated existing remote origin"]]
    else remotes r' = remotes r ++ [("origin", "file://" ++ w)%string] /\
         b_trace s' = b_trace s ++ [GitRemoteAdd "origin" WsRoot;
                                    Echo [Lit "Added remote origin"]].
Proof.
  split; [simpl; tauto|].
  destruct s as [ex g gm ne ib tr]; simpl in Hin, Hgit; subst ib g.
  unfold exec_cmd, origin_block, eval_cond. simpl.
  destruct (assoc_has "origin" (remotes r)) eqn:Hh;
    unfold exec_scmds, run_scmd, step, in_repo, log_cmd, set_git; simpl; rewrite ?Hh; simpl;
    rewrite ?andb_false_r; simpl; (split; [reflexivity | split; [reflexivity|]]); eexists;
    (split; [reflexivity|]); simpl.
  - rewrite append_empty_r. split; [apply assoc_get_set|].
    split; [apply assoc_set_keys, Hh | rewrite <- app_assoc; reflexivity].
  - rewrite append_empty_r. split; [apply assoc_get_snoc, Hh|].
    split; [reflexivity | rewrite <- app_assoc; reflexivity].
Qed.

Definition witness_repo : repo :=
  {| commits := ["Initial commit"]; staged := false; unstaged := false;
     remotes := [("origin", "file:///old")]; gcfg := []; exclude := [];
     reflog_expired := false |}.

Definition witness_build : bstate :=
  {| b_exists := true; b_git := EDir witness_repo; b_gitmodules := false;
     b_nonempty := true; b_in_build := true; b_trace := [] |}.

Definition plain_tree : source_tree :=
  {| src_git := ENone; src_gitmodules := false; src_nonempty := true |}.

Lemma origin_registration_witness :
  In origin_block clone_program /\
  let '(s', z, stop) := exec_cmd "/ws" plain_tree true false witness_build 0 origin_block in
  z = 0%Z /\ stop = false /\
  exists r', b_git s' = EDir r' /\
    assoc_get "origin" (remotes r') = Some ("file://" ++ "/ws")%string /\
    if assoc_has "origin" (remotes witness_repo)
    then map fst (remotes r') = map fst (remotes witness_repo) /\
         b_trace s' = b_trace witness_build ++ [GitRemoteSetUrl "origin" WsRoot;
                                                Echo [Lit "Updated existing remote origin"]]
    else remotes r' = remotes witness_repo ++ [("origin", "file://" ++ "/ws")%string] /\
         b_trace s' = b_trace witness_build ++ [GitRemoteAdd "origin" WsRoot;
                                                Echo [Lit "Added remote origin"]].
Proof.
  exact (origin_registration "/ws" plain_tree true false witness_build 0 witness_repo
           eq_refl eq_refl).
Defined.

Definition is_git_dir (g : gitentry) : bool :=
  match g with EDir _ => true | _ => false end.

(** The state after the copy and the [.git]-file removal step (the first
    five top-level directives), on a fresh build directory. *)
Definition after_removal (w : string) (t : source_tree) (errexit idn : bool) : bstate :=
  fst (fst (exec w t errexit idn fresh_build 0%Z (firstn 5 clone_program))).

Lemma exec_prefix_trace (w : string) (t : source_tree) (errexit idn : bool)
    (s : bstate) (st : Z) (p1 p2 : list cmd) :
  exists added,
    b_trace (fst (fst (exec w t errexit idn s st (p1 ++ p2))))
    = b_trace (fst (fst (exec w t errexit idn s st p1))) ++ added /\
    incl added (prog_scmds p2).
Proof.
  rewrite exec_app.
  destruct (exec w t errexit idn s st p1) as [[s1 z1] []]; simpl.
  - exists []. split; [now rewrite app_nil_r | intros x []].
  - apply exec_trace.
Qed.

Lemma rest_has_no_init_or_rm :
  ~ In GitInit (prog_scmds (skipn 6 clone_program)) /\
  ~ In (RmF BuildGit) (prog_scmds (skipn 6 clone_program)).
Proof.
  simpl. split; intro H;
    repeat match goal with H : _ \/ _ |- _ => destruct H end;
    solve [discriminate | contradiction].
Qed.

(** Case analysis on every boolean a computation is stuck on. *)
Ltac split_bools :=
  repeat match goal with
         | |- context [match ?b with true => _ | false => _ end] =>
             lazymatch b with true => fail | false => fail | _ => destruct b end
         end.

(** C5: on a fresh build directory, a [.git] file in the source tree is
    deleted before any [git init] or commit directive; a [.git] directory
    is left in place and no [rm] of it runs; [git init] runs exactly when
    no [.git] directory is present after the removal step; and the first
    commit directive is [git commit -m 'Initial commit'] on a fresh
    repository and [git commit -m 'Update commit'] on an existing one. *)
Theorem gitfile_handling (w : string) (t : source_tree) (errexit idn : bool) :
  let s_mid := after_removal w t errexit idn in
  let s := fst (run_bootstrap w t errexit idn fresh_build) in
  b_git s_mid = match src_git t with EFile => ENone | g => g end /\
  (src_git t = EFile ->
   exists pre post, b_trace s = pre ++ RmF BuildGit :: post /\
                    ~ In GitInit pre /\ first_commit pre = None) /\
  (is_git_dir (src_git t) = true -> ~ In (RmF BuildGit) (b_trace s)) /\
  (In GitInit (b_trace s) <-> is_git_dir (b_git s_mid) = false) /\
  first_commit (b_trace s)
  = Some (if is_git_dir (b_git s_mid) then "Update commit" else "Initial commit")%string.
Proof.
  intros s_mid s.
  destruct (exec_prefix_trace w t errexit idn fresh_build 0 (firstn 6 clone_program)
              (skipn 6 clone_program)) as [added [Ha Hi]].
  rewrite firstn_skipn in Ha.
  assert (Hs : b_trace s = b_trace (fst (fst (exec w t errexit idn fresh_build 0
                                                 clone_program)))).
  { unfold s, run_bootstrap.
    destruct (exec w t errexit idn fresh_build 0 clone_program) as [[? ?] ?]; reflexivity. }
  rewrite Hs, Ha. clear Hs Ha s.
  destruct rest_has_no_init_or_rm as [Hni Hnr].
  assert (HnI : ~ In GitInit added) by (intro H; apply Hni, Hi, H).
  assert (HnR : ~ In (RmF BuildGit) added) by (intro H; apply Hnr, Hi, H).
  clear Hi Hni Hnr.
  unfold s_mid, after_removal. clear s_mid.
  destruct t as [g gm ne]; simpl src_git.
  destruct g as [| |[cm st us rm cf ex rf]]; destruct ne, errexit, idn; simpl;
    unfold run_scmd, step, in_repo, has_identity, log_cmd, set_git; simpl; split_bools; simpl.
  all: split; [reflexivity|].
  all: split;
    [ intros Hg; first
        [ discriminate Hg
        | exists [Echo [Lit "Contents of workspace "; WsPiece; Lit ":"];
                  Ls WsRoot; CpR WsRoot BuildDir;
                  Echo [Lit "Checking for .git file in current workspace..."];
                  Echo [Lit "Found .git file at: "; WsPiece; Lit "/.git"];
                  Echo [Lit "This is a submodule .git file, removing it to let git handle it properly"]];
          eexists; split; [reflexivity|];
          split; [simpl; intuition discriminate | reflexivity] ] |].
  all: split;
    [ intros Hd; first [ discriminate Hd | rewrite ?in_app_iff; simpl; intuition discriminate ] |].
  all: split; [rewrite ?in_app_iff; simpl; intuition (first [discriminate | reflexivity]) |].
  all: first [reflexivity | apply first_commit_app; reflexivity].
Qed.


Definition submodule_tree : source_tree :=
  {| src_git := EFile; src_gitmodules := false; src_nonempty := true |}.

Lemma gitfile_handling_witness :
  exists pre post,
    b_trace (fst (run_bootstrap "/parent/src/sub" submodule_tree true false fresh_build))
    = pre ++ RmF BuildGit :: post /\ ~ In GitInit pre /\ first_commit pre = None.
Proof.
  apply (proj1 (proj2 (gitfile_handling "/parent/src/sub" submodule_tree true false))).
  reflexivity.
Defined.

(** The repository in the build directory, if any. *)
Definition build_repo (s : bstate) : option repo :=
  match b_git s with EDir r => Some r | _ => None end.

(** Two successive runs of the script on a plain source tree. *)
Definition run_twice (w : string) (t : source_tree) (errexit idn : bool)
    : (bstate * Z) * (bstate * Z) :=
  let first := run_bootstrap w t errexit idn fresh_build in
  (first, run_bootstrap w t errexit idn (new_shell (fst first))).

(** What a second run of the script on its own output leaves behind. *)
Definition rerun_outcome (errexit : bool) : Prop :=
  let '((s1, z1), (s2, z2)) := run_twice "/ws" plain_tree errexit false in
  z1 = 0%Z /\ z2 = 0%Z /\
  option_map commits (build_repo s2) = Some ["Initial commit"; "Update commit"]%string /\
  option_map exclude (build_repo s1) = Some [".bitbucket/pipelines/generated"]%string /\
  option_map exclude (build_repo s2)
  = Some [".bitbucket/pipelines/generated"; ".bitbucket/pipelines/generated"]%string.

(** C4: re-running the script on its own output, for a plain source tree
    and with or without [set -e]: both runs exit 0 and the second adds an
    ['Update commit'] (no second ['Initial commit']), but it appends the
    exclude rule a second time, so [.git/info/exclude] holds it twice. *)
Theorem bootstrap_rerun_duplicates_exclude : rerun_outcome true /\ rerun_outcome false.
Proof.
  split; vm_compute; repeat split.
Qed.

(** On a submodule checkout the second run under [set -e] stops at
    [rm -f $BUILD_DIR/.git], which is by then a directory. *)
Lemma bootstrap_rerun_submodule_stops :
  snd (fst (run_twice "/parent/src/sub" submodule_tree true false)) = 0%Z /\
  snd (snd (run_twice "/parent/src/sub" submodule_tree true false)) = 1%Z.
Proof. vm_compute. split; reflexivity. Qed.

(* ================================================================== *)
(** ** Further properties of the code *)

(** String concatenation is associative. *)
Lemma string_app_assoc (a b c : string) : ((a ++ b) ++ c)%string = (a ++ b ++ c)%string.
Proof. induction a as [|ch a IH]; simpl; [reflexivity | now rewrite IH]. Qed.

(** The prefix [_get_clone_command] puts before [git clone]. *)
Definition lfs_prefix (default_settings : CloneSettings) (self : RepositoryCloner) : string :=
  match _first_non_none_value [lfs (_step_clone_settings self); lfs (_global_clone_settings self);
                               lfs default_settings] with
  | Some true => ""
  | _ => "GIT_LFS_SKIP_SMUDGE=1 "
  end.

(** The [--depth] part of the clone command, with its leading space. *)
Definition depth_flag (d : option depth_val) : string :=
  match d with
  | Some v => if depth_truthy d then " --depth " ++ py_str_depth v else ""
  | None => ""
  end.

(** [_get_clone_command]: the command is [GIT_LFS_SKIP_SMUDGE=1 ] unless
    the resolved [lfs] setting is [True] (so also when it is absent
    everywhere), then [git clone --branch='<branch>'], then
    [ --depth <str(depth)>] exactly when the resolved depth is truthy,
    then the origin and [$BUILD_DIR]. *)
Theorem clone_command_layout (default_settings : CloneSettings) (self : RepositoryCloner)
    (branch origin : string) :
  _get_clone_command default_settings self branch origin
  = (lfs_prefix default_settings self ++ "git clone --branch='" ++ branch ++ "'"
     ++ depth_flag (_get_clone_depth default_settings (_step_clone_settings self)
                      (_global_clone_settings self))
     ++ " " ++ origin ++ " $BUILD_DIR")%string.
Proof.
  unfold _get_clone_command, lfs_prefix, depth_flag, _should_clone_lfs.
  destruct (_first_non_none_value _) as [[|]|];
  destruct (_get_clone_depth _ _ _) as [d|]; try destruct (depth_truthy _);
  cbn [py_bool negb app String.concat]; rewrite ?string_app_assoc; reflexivity.
Qed.

(** A falsy step-level depth ([0] or [""]) is present, so it hides the
    pipeline and default depths, and the command carries no [--depth]. *)
Theorem clone_command_step_depth_falsy (default_settings : CloneSettings)
    (self : RepositoryCloner) (branch origin : string) (d : depth_val)
    (Hd : depth (_step_clone_settings self) = Some d)
    (Hf : depth_truthy (Some d) = false) :
  _get_clone_command default_settings self branch origin
  = (lfs_prefix default_settings self ++ "git clone --branch='" ++ branch ++ "' "
     ++ origin ++ " $BUILD_DIR")%string.
Proof.
  assert (E : _get_clone_depth default_settings (_step_clone_settings self)
                (_global_clone_settings self) = Some d)
    by (unfold _get_clone_depth; cbn; rewrite Hd; reflexivity).
  unfold _get_clone_command, lfs_prefix, _should_clone_lfs.
  rewrite E, Hf.
  destruct (_first_non_none_value _) as [[|]|];
  cbn [py_bool negb app String.concat]; rewrite ?string_app_assoc; reflexivity.
Qed.

(** The image [clone] asks for, given the [user] passed to [__init__]. *)
Definition runner_image (user : user_arg) : Image :=
  {| image_name := "alpine/git";
     run_as_user := match user with
                    | UNone => None | UInt n => Some (py_str_int n) | UStr s => Some s
                    end |}.

(** [__init__] followed by [clone]: when cloning is enabled by the
    context's step and pipeline settings, the first call creates the
    runner [<parent_container_name>-clone] on [alpine/git], run as
    [str(user)] ([None] only when no user is given). *)
Theorem cloner_runner_from_init (default_settings : CloneSettings) (ctx : StepRunContext)
    (user : user_arg) (parent_container_name : string)
    (os_environ : environ) (config : Config) (runner : runtime)
    (Hon : _should_clone default_settings (step_clone_settings ctx)
                                          (pipeline_clone_settings ctx) = true) :
  exists rest,
    fst (clone default_settings (make_cloner ctx user parent_container_name)
               os_environ config runner [])
    = EvNewRunner (parent_container_name ++ "-clone") (runner_image user) :: rest.
Proof.
  unfold clone. cbn [make_cloner _step_clone_settings _global_clone_settings _user _name].
  rewrite Hon. unfold try_finally, bind, emit, lift, raise, ret. cbn.
  destruct (rt_start runner) as [[]|e]; cbn.
  - destruct (rt_run_command runner _ 0) as [z|e]; cbn;
      [destruct (int_truthy z); cbn;
       [|destruct (rt_run_script runner _) as [y|e]; cbn; [destruct (int_truthy y)|]]|];
      eexists; destruct user; reflexivity.
  - eexists; destruct user; reflexivity.
Qed.

(** The runner creation event of [clone]. *)
Definition runner_of (self : RepositoryCloner) : event :=
  EvNewRunner (_name self) {| image_name := "alpine/git"; run_as_user := _user self |}.

(** An exception from [runner.start()] propagates out of [clone]: it is
    raised before the [try], so [stop()] is not called and no command
    runs. *)
Theorem clone_start_failure (default_settings : CloneSettings) (self : RepositoryCloner)
    (os_environ : environ) (config : Config) (runner : runtime) (e : pyexc)
    (Hon : _should_clone default_settings (_step_clone_settings self)
                                        (_global_clone_settings self) = true)
    (Hstart : rt_start runner = Raise e) :
  clone default_settings self os_environ config runner []
  = ([runner_of self; EvStart], Raise e).
Proof.
  unfold clone. rewrite Hon. unfold try_finally, bind, emit, lift, raise, ret. cbn.
  rewrite Hstart. reflexivity.
Qed.

(** An exception raised by [run_command] or [run_script] leaves [clone]
    unchanged, after [stop()] has run. *)
Theorem clone_runtime_exception_propagates (default_settings : CloneSettings)
    (self : RepositoryCloner) (os_environ : environ) (config : Config) (runner : runtime)
    (e : pyexc)
    (Hon : _should_clone default_settings (_step_clone_settings self)
                                        (_global_clone_settings self) = true)
    (Hstart : rt_start runner = Ok tt) :
  (rt_run_command runner (safe_directory_command config) 0 = Raise e ->
   clone default_settings self os_environ config runner []
   = ([runner_of self; EvStart; EvRunCommand (safe_directory_command config) 0; EvStop],
      Raise e)) /\
  (rt_run_command runner (safe_directory_command config) 0 = Ok 0%Z ->
   rt_run_script runner (_get_clone_script os_environ config) = Raise e ->
   clone default_settings self os_environ config runner []
   = ([runner_of self; EvStart; EvRunCommand (safe_directory_command config) 0;
       EvRunScript (_get_clone_script os_environ config); EvStop], Raise e)).
Proof.
  unfold clone. rewrite Hon.
  remember (safe_directory_command config) as command eqn:Ecmd.
  remember (_get_clone_script os_environ config) as script eqn:Escript.
  unfold try_finally, bind, emit, lift, raise, ret. cbn. rewrite Hstart. cbn.
  split.
  - intros Hc. rewrite Hc. reflexivity.
  - intros Hc Hs. rewrite Hc. cbn. rewrite Hs. reflexivity.
Qed.

(** When both the safe-directory command and the script exit with 0,
    [clone] runs exactly: create runner, start, safe-directory command as
    uid 0, the clone script, stop; and returns normally. *)
Theorem clone_success_trace (default_settings : CloneSettings) (self : RepositoryCloner)
    (os_environ : environ) (config : Config) (runner : runtime)
    (Hon : _should_clone default_settings (_step_clone_settings self)
                                        (_global_clone_settings self) = true)
    (Hstart : rt_start runner = Ok tt)
    (Hc : rt_run_command runner (safe_directory_command config) 0 = Ok 0%Z)
    (Hs : rt_run_script runner (_get_clone_script os_environ config) = Ok 0%Z) :
  clone default_settings self os_environ config runner []
  = ([runner_of self; EvStart; EvRunCommand (safe_directory_command config) 0;
      EvRunScript (_get_clone_script os_environ config); EvStop], Ok tt).
Proof.
  unfold clone. rewrite Hon.
  remember (safe_directory_command config) as command eqn:Ecmd.
  remember (_get_clone_script os_environ config) as script eqn:Escript.
  unfold try_finally, bind, emit, lift, raise, ret. cbn. rewrite Hstart. cbn.
  rewrite Hc. cbn. rewrite Hs. reflexivity.
Qed.

(** With [enabled] absent at every level, [bool(None)] is false: the
    clone is skipped with only the informational notice. *)
Theorem clone_enabled_unset_skips (default_settings : CloneSettings) (self : RepositoryCloner)
    (os_environ : environ) (config : Config) (runner : runtime) (tr : list event)
    (Hs : enabled (_step_clone_settings self) = None)
    (Hg : enabled (_global_clone_settings self) = None)
    (Hd : enabled default_settings = None) :
  clone default_settings self os_environ config runner tr
  = (tr ++ [EvInfo "Clone disabled: skipping"], Ok tt).
Proof.
  unfold clone, _should_clone. cbn [_first_non_none_value]. rewrite Hs, Hg, Hd. reflexivity.
Qed.




(** An empty source tree without a [.git] directory gives a repository
    with no commit; the script exits 1 under [set -e] (the initial commit
    has nothing to commit) and 0 otherwise. *)
Theorem empty_source_tree_no_commit (w : string) (t : source_tree) (errexit idn : bool)
    (Hg : is_git_dir (src_git t) = false) (Hne : src_nonempty t = false) :
  let '(s, z) := run_bootstrap w t errexit idn fresh_build in
  z = (if errexit then 1 else 0)%Z /\ option_map commits (build_repo s) = Some [].
Proof.
  destruct t as [g gm ne]; cbn in Hg, Hne; subst ne.
  destruct g; try discriminate Hg.
  all: destruct gm, errexit, idn; cbv; split; reflexivity.
Qed.




(* Sample inputs. *)
Definition sample_defaults : CloneSettings :=
  {| enabled := Some true; lfs := Some false; depth := Some (DInt 50) |}.

Definition sample_cloner (step glob : CloneSettings) : RepositoryCloner :=
  {| _step_clone_settings := step; _global_clone_settings := glob;
     _user := None; _name := "build-clone" |}.

Definition no_settings : CloneSettings := {| enabled := None; lfs := None; depth := None |}.

Lemma clone_command_step_depth_falsy_witness :
  _get_clone_command sample_defaults
    (sample_cloner {| enabled := None; lfs := Some true; depth := Some (DInt 0) |}
                   {| enabled := None; lfs := None; depth := Some (DInt 50) |})
    "main" "file:///ws"
  = "git clone --branch='main' file:///ws $BUILD_DIR".
Proof.
  exact (clone_command_step_depth_falsy sample_defaults
           (sample_cloner {| enabled := None; lfs := Some true; depth := Some (DInt 0) |}
                          {| enabled := None; lfs := None; depth := Some (DInt 50) |})
           "main" "file:///ws" (DInt 0) eq_refl eq_refl).
Defined.

Definition sample_runtime (start : result unit) (cmd_status script_status : result Z) : runtime :=
  {| rt_start := start; rt_run_command := fun _ _ => cmd_status;
     rt_run_script := fun _ => script_status |}.

Definition sample_ctx : StepRunContext :=
  {| step_clone_settings := no_settings; pipeline_clone_settings := no_settings |}.

Definition sample_config : Config := {| remote_workspace_dir := "/ws" |}.

Lemma cloner_runner_from_init_witness :
  exists rest,
    fst (clone sample_defaults (make_cloner sample_ctx (UInt 0) "build")
               [] sample_config (sample_runtime (Ok tt) (Ok 0%Z) (Ok 0%Z)) [])
    = EvNewRunner "build-clone" {| image_name := "alpine/git"; run_as_user := Some "0" |}
      :: rest.
Proof.
  exact (cloner_runner_from_init sample_defaults sample_ctx (UInt 0) "build" []
           sample_config (sample_runtime (Ok tt) (Ok 0%Z) (Ok 0%Z)) eq_refl).
Defined.

Lemma clone_start_failure_witness :
  clone sample_defaults (sample_cloner no_settings no_settings) [] sample_config
        (sample_runtime (Raise (Exception_ "docker")) (Ok 0%Z) (Ok 0%Z)) []
  = ([runner_of (sample_cloner no_settings no_settings); EvStart],
     Raise (Exception_ "docker")).
Proof.
  exact (clone_start_failure sample_defaults (sample_cloner no_settings no_settings) []
           sample_config (sample_runtime (Raise (Exception_ "docker")) (Ok 0%Z) (Ok 0%Z))
           (Exception_ "docker") eq_refl eq_refl).
Defined.

Lemma clone_runtime_exception_propagates_witness :
  clone sample_defaults (sample_cloner no_settings no_settings) [] sample_config
        (sample_runtime (Ok tt) (Ok 0%Z) (Raise (Exception_ "timeout"))) []
  = ([runner_of (sample_cloner no_settings no_settings); EvStart;
      EvRunCommand (safe_directory_command sample_config) 0;
      EvRunScript (_get_clone_script [] sample_config); EvStop],
     Raise (Exception_ "timeout")).
Proof.
  exact (proj2 (clone_runtime_exception_propagates sample_defaults
                  (sample_cloner no_settings no_settings) [] sample_config
                  (sample_runtime (Ok tt) (Ok 0%Z) (Raise (Exception_ "timeout")))
                  (Exception_ "timeout") eq_refl eq_refl) eq_refl eq_refl).
Defined.

Lemma clone_success_trace_witness :
  clone sample_defaults (sample_cloner no_settings no_settings) [] sample_config
        (sample_runtime (Ok tt) (Ok 0%Z) (Ok 0%Z)) []
  = ([runner_of (sample_cloner no_settings no_settings); EvStart;
      EvRunCommand (safe_directory_command sample_config) 0;
      EvRunScript (_get_clone_script [] sample_config); EvStop], Ok tt).
Proof.
  exact (clone_success_trace sample_defaults (sample_cloner no_settings no_settings) []
           sample_config (sample_runtime (Ok tt) (Ok 0%Z) (Ok 0%Z))
           eq_refl eq_refl eq_refl eq_refl).
Defined.

Lemma clone_enabled_unset_skips_witness :
  clone no_settings (sample_cloner no_settings no_settings) [] sample_config
        (sample_runtime (Ok tt) (Ok 0%Z) (Ok 0%Z)) []
  = ([EvInfo "Clone disabled: skipping"], Ok tt).
Proof.
  exact (clone_enabled_unset_skips no_settings (sample_cloner no_settings no_settings) []
           sample_config (sample_runtime (Ok tt) (Ok 0%Z) (Ok 0%Z)) []
           eq_refl eq_refl eq_refl).
Defined.



Definition empty_tree : source_tree :=
  {| src_git := ENone; src_gitmodules := false; src_nonempty := false |}.

Lemma empty_source_tree_no_commit_witness :
  let '(s, z) := run_bootstrap "/ws" empty_tree true false fresh_build in
  z = 1%Z /\ option_map commits (build_repo s) = Some [].
Proof.
  exact (empty_source_tree_no_commit "/ws" empty_tree true false eq_refl eq_refl).
Defined.





